(** * FileManager: the file-processing pipeline of [services/api]

    A shallow embedding of the two Python modules
    - [services/api/process_file.py]      (the command-line tool, [main]);
    - [services/api/src/process_file.py]  (the FastAPI endpoints
      [process_file], [process_folder] and the helper [hash_file]);
    together with the pieces of the Python standard library they call
    ([str.lower], [str.lstrip], [str.rfind], [pathlib], [urllib.parse.unquote],
    [hashlib]'s SHA-256).

    Scope of the model.
    - The library functions follow CPython 3.12 on a POSIX system.
    - A Python [str] is a Rocq [string] read as ASCII text; [str.lower] is the
      ASCII lowering, which is what Python does on such text, and
      [unquote] decodes a [%XY] escape to the one character [XY].
    - Paths are POSIX paths ([PurePosixPath]): separator [/], components kept
      as written, [..] never collapsed by parsing.
    - The file system is a finite tree of directories, regular files and
      special nodes (devices, sockets); there are no symbolic links and every
      directory can be listed.  A regular file can be unreadable.  Real trees
      are well formed ([FS.wf]): names are unique in a directory and are
      proper entry names.
    - The existence and type tests ([exists], [is_file], [is_dir]) always
      answer: the operating system reports nothing but "no such file" (no
      name is too long, no directory refuses to be searched).  [input]
      always gets a line, and standard output takes every text.
    - The text of the error of a file that cannot be opened or read is a
      datum of the file; [repr] is the quoting of a text without quotes,
      backslashes or control characters. *)

From Stdlib Require Import ZArith Lia Ascii String Strings.Byte.
From stdpp Require Import base decidable option list strings gmap pretty.

#[local] Set Warnings "-register-all".

Local Open Scope string_scope.
Local Open Scope list_scope.
Local Open Scope Z_scope.

(** ** Python strings *)

Module PyStr.

(** [c.lower()] for one character: [A]..[Z] move to [a]..[z]. *)
Definition lower_ascii (c : ascii) : ascii :=
  let n := N_of_ascii c in
  if ((65 <=? n) && (n <=? 90))%N then ascii_of_N (n + 32) else c.

(** [s.lower()] *)
Fixpoint lower (s : string) : string :=
  match s with
  | "" => ""
  | String c r => String (lower_ascii c) (lower r)
  end.

(** [s.lstrip(c)] for a one-character set. *)
Fixpoint lstrip (c : ascii) (s : string) : string :=
  match s with
  | "" => ""
  | String a r => if Ascii.eqb a c then lstrip c r else s
  end.

(** [s.rfind(c)]: the highest index of [c] in [s], [-1] when absent. *)
Fixpoint rfind (c : ascii) (s : string) : Z :=
  match s with
  | "" => -1
  | String a r =>
      let j := rfind c r in
      if 0 <=? j then j + 1 else if Ascii.eqb a c then 0 else -1
  end.

(** [len(s)] *)
Definition len (s : string) : Z := Z.of_nat (String.length s).

(** [s[n:]] for a natural [n]. *)
Fixpoint drop (n : nat) (s : string) : string :=
  match n, s with
  | O, _ => s
  | S _, "" => ""
  | S k, String _ r => drop k r
  end.

(** [s.split(sep)] for a one-character separator: one more piece than
    there are separators. *)
Fixpoint split (sep : ascii) (s : string) : list string :=
  match s with
  | "" => [""]
  | String a r =>
      if Ascii.eqb a sep then "" :: split sep r
      else match split sep r with
           | x :: xs => String a x :: xs
           | [] => [String a ""]
           end
  end.

(** [sep.join(l)] *)
Fixpoint join (sep : string) (l : list string) : string :=
  match l with
  | [] => ""
  | [x] => x
  | x :: xs => x +:+ sep +:+ join sep xs
  end.

(** [c in s] for a character. *)
Fixpoint has_char (c : ascii) (s : string) : bool :=
  match s with
  | "" => false
  | String a r => Ascii.eqb a c || has_char c r
  end.

(** [s.startswith(p)] *)
Fixpoint startswith (p s : string) : bool :=
  match p, s with
  | "", _ => true
  | String _ _, "" => false
  | String a p', String b s' => Ascii.eqb a b && startswith p' s'
  end.

(** [p in s] for strings: [p] occurs at some position of [s]. *)
Fixpoint contains (p s : string) : bool :=
  startswith p s ||
  match s with
  | "" => false
  | String _ r => contains p r
  end.

End PyStr.

Definition NUL : ascii := "000"%char.

(** ** [pathlib.PurePosixPath] *)

Module PurePath.

(** A parsed path: the root ([""], ["/"] or ["//"]) and the components. *)
Record t := mk { root : string; tail : list string }.

(** [posixpath.splitroot]: exactly two leading slashes are kept apart,
    any other number of them is one root. *)
Definition splitroot (p : string) : string * string :=
  match p with
  | String "/" (String "/" (String "/" r)) => ("/", String "/" (String "/" r))
  | String "/" (String "/" r) => ("//", r)
  | String "/" r => ("/", r)
  | _ => ("", p)
  end.

(** [PurePosixPath(s)]: the components are the pieces between slashes,
    without the empty ones and the [.] ones. *)
Definition of_str (s : string) : t :=
  let (rt, rel) := splitroot s in
  mk rt (filter (fun x => x <> "" /\ x <> ".") (PyStr.split "/" rel)).

(** [str(p)] *)
Definition to_str (p : t) : string :=
  if bool_decide (root p = "") then
    match tail p with
    | [] => "."
    | _ => PyStr.join "/" (tail p)
    end
  else root p +:+ PyStr.join "/" (tail p).

(** [p.name]: the last component, [""] when there is none. *)
Definition name (p : t) : string := List.last (tail p) "".

(** [p.suffix] *)
Definition suffix (p : t) : string :=
  let nm := name p in
  let i := PyStr.rfind "." nm in
  if (0 <? i) && (i <? PyStr.len nm - 1) then PyStr.drop (Z.to_nat i) nm
  else "".

(** [p / name] for one component. *)
Definition child (p : t) (nm : string) : t := mk (root p) (tail p ++ [nm]).


End PurePath.

(** ** The allow-list and the extension of a path *)

(** [SUPPORTED_EXTENSIONS], the same set in both modules. *)
Definition SUPPORTED_EXTENSIONS : gset string :=
  list_to_set
    [ "pdf"; "docx"; "doc"; "rtf"; "odt"; "txt"; "md";
      "pptx"; "ppt"; "xlsx"; "xls"; "csv"; "py"; "sql";
      "js"; "ts"; "cs"; "java"; "go"; "sh"; "ps1";
      "json"; "xml"; "yaml"; "yml"; "toml"; "html"; "htm";
      "eml"; "msg"; "vtt"; "srt" ].

(** [ext in SUPPORTED_EXTENSIONS] *)
Definition is_supported (ext : string) : bool :=
  bool_decide (ext ∈ SUPPORTED_EXTENSIONS).

(** [p.suffix.lstrip('.').lower()], the expression every call site uses. *)
Definition file_extension (p : PurePath.t) : string :=
  PyStr.lower (PyStr.lstrip "." (PurePath.suffix p)).

(** ** The file system *)

Module FS.

(** What reading a regular file does: it works, [open] raises an [OSError]
    with the given text, or [open] works and reading raises one. *)
Inductive readability :=
| Readable
| OpenFails (err : string)
| ReadFails (err : string).

Inductive node :=
| File (r : readability) (content : list byte)
| Dir (entries : list (string * node))
| Special.

(** The tree below [/] and the working directory of the process (the
    components of [os.getcwd()]). *)
Record t := mk { top : list (string * node); cwd : list string }.

(** The entry called [nm] of a directory listing. *)
Fixpoint entry (nm : string) (es : list (string * node)) : option node :=
  match es with
  | [] => None
  | (k, n) :: r => if bool_decide (k = nm) then Some n else entry nm r
  end.

(** Descent from a node along entry names. *)
Fixpoint find (cs : list string) (n : node) : option node :=
  match cs with
  | [] => Some n
  | c :: r =>
      match n with
      | Dir es => match entry c es with
                  | Some m => find r m
                  | None => None
                  end
      | _ => None
      end
  end.

Definition at_ (fs : t) (cs : list string) : option node :=
  find cs (Dir (top fs)).

(** Path resolution as the kernel does it: every step needs a directory
    to step from, [..] is the parent ([/] is its own parent) and [.]
    stays.  The result is the list of entry names from [/]. *)
Fixpoint walk (fs : t) (cur : list string) (comps : list string)
  : option (list string) :=
  match comps with
  | [] => Some cur
  | c :: r =>
      match at_ fs cur with
      | Some (Dir _) =>
          if bool_decide (c = "..") then walk fs (removelast cur) r
          else if bool_decide (c = ".") then walk fs cur r
          else walk fs (cur ++ [c]) r
      | _ => None
      end
  end.

Definition start (fs : t) (p : PurePath.t) : list string :=
  if bool_decide (PurePath.root p = "") then cwd fs else [].

(** [os.stat(p)]: the node [p] leads to, if any. *)
Definition stat (fs : t) (p : PurePath.t) : option node :=
  match walk fs (start fs p) (PurePath.tail p) with
  | Some cs => at_ fs cs
  | None => None
  end.

(** [Path.exists], [Path.is_file], [Path.is_dir] *)
Definition exists_ (fs : t) (p : PurePath.t) : bool :=
  match stat fs p with Some _ => true | None => false end.

Definition is_file (fs : t) (p : PurePath.t) : bool :=
  match stat fs p with Some (File _ _) => true | _ => false end.

Definition is_dir (fs : t) (p : PurePath.t) : bool :=
  match stat fs p with Some (Dir _) => true | _ => false end.

(** [os.path.realpath] without symbolic links, not strict: the path is
    made absolute and [..] removes the component before it, whether or not
    anything exists there. *)
Definition realpath (fs : t) (p : PurePath.t) : list string :=
  fold_left
    (fun acc c => if bool_decide (c = "..") then removelast acc else acc ++ [c])
    (PurePath.tail p) (start fs p).

(** Well-formed listings: an entry name is not empty, is neither [.] nor
    [..], has no slash and no NUL character, and is used once in its
    directory. *)
Definition name_ok (nm : string) : Prop :=
  nm <> "" /\ nm <> "." /\ nm <> ".." /\
  PyStr.has_char "/" nm = false /\ PyStr.has_char NUL nm = false.

Inductive wf_node : node -> Prop :=
| wf_File r c : wf_node (File r c)
| wf_Special : wf_node Special
| wf_Dir es :
    NoDup (fst <$> es) ->
    Forall (fun e => name_ok (fst e) /\ wf_node (snd e)) es ->
    wf_node (Dir es).

Definition wf (fs : t) : Prop := wf_node (Dir (top fs)).

End FS.

(** ** [urllib.parse.unquote] *)

Module Urllib.

Definition hexval (c : ascii) : option N :=
  let n := N_of_ascii c in
  if ((48 <=? n) && (n <=? 57))%N then Some (n - 48)%N
  else if ((97 <=? n) && (n <=? 102))%N then Some (n - 87)%N
  else if ((65 <=? n) && (n <=? 70))%N then Some (n - 55)%N
  else None.

(** Every [%XY] with two hexadecimal digits becomes the byte [XY]; a [%]
    not followed by two such digits stays.  On ASCII bytes the UTF-8
    decoding that follows is the identity. *)
Fixpoint unquote (s : string) : string :=
  match s with
  | "" => ""
  | String c rest =>
      if Ascii.eqb c "%" then
        match rest with
        | String a (String b r) =>
            match hexval a, hexval b with
            | Some x, Some y => String (ascii_of_N (16 * x + y)) (unquote r)
            | _, _ => String c (unquote rest)
            end
        | _ => String c (unquote rest)
        end
      else String c (unquote rest)
  end.

End Urllib.

(** ** [hashlib]: SHA-256 (FIPS 180-4) on 32-bit words held in [Z] *)

Module SHA256.

Definition wrap (x : Z) : Z := x mod 2 ^ 32.

Definition add (x y : Z) : Z := wrap (x + y).

Definition rotr (n x : Z) : Z :=
  Z.lor (Z.shiftr x n) (wrap (Z.shiftl x (32 - n))).

Definition shr (n x : Z) : Z := Z.shiftr x n.

Definition not32 (x : Z) : Z := Z.lxor x 0xffffffff.

Definition Ch (x y z : Z) : Z :=
  Z.lxor (Z.land x y) (Z.land (not32 x) z).

Definition Maj (x y z : Z) : Z :=
  Z.lxor (Z.lxor (Z.land x y) (Z.land x z)) (Z.land y z).

Definition bsig0 (x : Z) : Z :=
  Z.lxor (Z.lxor (rotr 2 x) (rotr 13 x)) (rotr 22 x).

Definition bsig1 (x : Z) : Z :=
  Z.lxor (Z.lxor (rotr 6 x) (rotr 11 x)) (rotr 25 x).

Definition ssig0 (x : Z) : Z :=
  Z.lxor (Z.lxor (rotr 7 x) (rotr 18 x)) (shr 3 x).

Definition ssig1 (x : Z) : Z :=
  Z.lxor (Z.lxor (rotr 17 x) (rotr 19 x)) (shr 10 x).

(** The first 64 primes. *)
Definition is_prime (p : Z) : bool :=
  forallb (fun d => negb (p mod Z.of_nat d =? 0)) (seq 2 (Z.to_nat p - 2)).

Definition primes : list Z :=
  Eval vm_compute in List.filter is_prime (map Z.of_nat (seq 2 310)).

(** The largest [r] below [2 ^ bits] with [r ^ 3 <= n]. *)
Fixpoint cube_root (bits : nat) (n r : Z) : Z :=
  match bits with
  | O => r
  | S b =>
      let r' := r + 2 ^ Z.of_nat b in
      cube_root b n (if r' * r' * r' <=? n then r' else r)
  end.

(** The round constants: the first 32 bits of the fractional parts of the
    cube roots of the primes. *)
Definition K : list Z :=
  Eval vm_compute in map (fun p => wrap (cube_root 35 (p * 2 ^ 96) 0)) primes.

(** The eight working words. *)
Record regs := Regs { ra : Z; rb : Z; rc : Z; rd : Z;
                      re : Z; rf : Z; rg : Z; rh : Z }.

(** The initial hash value: the first 32 bits of the fractional parts of
    the square roots of the first eight primes. *)
Definition frac_sqrt (p : Z) : Z := wrap (Z.sqrt (p * 2 ^ 64)).

Definition H0 : regs :=
  Eval vm_compute in
    Regs (frac_sqrt 2) (frac_sqrt 3) (frac_sqrt 5) (frac_sqrt 7)
         (frac_sqrt 11) (frac_sqrt 13) (frac_sqrt 17) (frac_sqrt 19).

(** The message with its padding: a [0x80] byte, zeros up to 56 modulo
    64, and the length in bits on eight bytes, most significant first. *)
Definition be_bytes (n : nat) (x : Z) : list Z :=
  map (fun i => Z.shiftr x (8 * Z.of_nat i) mod 256) (rev (seq 0 n)).

Definition pad (msg : list Z) : list Z :=
  let l := Z.of_nat (length msg) in
  msg ++ [0x80] ++ repeat 0 (Z.to_nat ((55 - l) mod 64)) ++ be_bytes 8 (8 * l).

Definition word_of (bs : list Z) : Z :=
  fold_left (fun acc b => acc * 256 + b) bs 0.

(** [n] groups of [k] items from the front of a list. *)
Fixpoint chunks {A} (k n : nat) (l : list A) : list (list A) :=
  match n with
  | O => []
  | S n' => take k l :: chunks k n' (drop k l)
  end.

Definition block_words (blk : list Z) : list Z :=
  map word_of (chunks 4 16 blk).

(** One round.  [win] holds the sixteen schedule words [W t .. W (t+15)];
    the round uses [W t] and the window moves on by one word. *)
Definition round (st : regs * list Z) (k : Z) : regs * list Z :=
  let '(r, win) := st in
  let w i := nth i win 0 in
  let t1 := add (add (add (add (rh r) (bsig1 (re r))) (Ch (re r) (rf r) (rg r))) k) (w 0%nat) in
  let t2 := add (bsig0 (ra r)) (Maj (ra r) (rb r) (rc r)) in
  let nw := add (add (add (ssig1 (w 14%nat)) (w 9%nat)) (ssig0 (w 1%nat))) (w 0%nat) in
  (Regs (add t1 t2) (ra r) (rb r) (rc r) (add (rd r) t1) (re r) (rf r) (rg r),
   List.tl win ++ [nw]).

Definition compress (h : regs) (blk : list Z) : regs :=
  let r := fst (fold_left round K (h, block_words blk)) in
  Regs (add (ra h) (ra r)) (add (rb h) (rb r)) (add (rc h) (rc r))
       (add (rd h) (rd r)) (add (re h) (re r)) (add (rf h) (rf r))
       (add (rg h) (rg r)) (add (rh h) (rh r)).

Definition digest_regs (msg : list Z) : regs :=
  let p := pad msg in
  fold_left compress (chunks 64 (length p / 64) p) H0.

(** [sha256(data).digest()]: the eight words, four bytes each. *)
Definition digest (data : list byte) : list Z :=
  let r := digest_regs (map (fun b => Z.of_N (Byte.to_N b)) data) in
  be_bytes 4 (ra r) ++ be_bytes 4 (rb r) ++ be_bytes 4 (rc r) ++
  be_bytes 4 (rd r) ++ be_bytes 4 (re r) ++ be_bytes 4 (rf r) ++
  be_bytes 4 (rg r) ++ be_bytes 4 (rh r).

Definition hexdigits : list ascii :=
  [ "0"; "1"; "2"; "3"; "4"; "5"; "6"; "7";
    "8"; "9"; "a"; "b"; "c"; "d"; "e"; "f" ]%char.

Definition hexdigit (n : Z) : ascii :=
  nth (Z.to_nat (n mod 16)) hexdigits "0"%char.

Fixpoint hex (bs : list Z) : string :=
  match bs with
  | [] => ""
  | b :: r => String (hexdigit (b / 16)) (String (hexdigit b) (hex r))
  end.

(** [sha256(data).hexdigest()] *)
Definition hexdigest (data : list byte) : string := hex (digest data).

End SHA256.

(** ** Effects: what is written to standard output, and exceptions *)

Module Py.

Inductive exn :=
| OSError (msg : string)
| ValueError (msg : string)
| UnboundLocalError (var : string).

(** [str(e)] *)
Definition str_of_exn (e : exn) : string :=
  match e with
  | OSError msg => msg
  | ValueError msg => msg
  | UnboundLocalError var =>
      "cannot access local variable '" +:+ var +:+
      "' where it is not associated with a value"
  end.

Inductive result (A : Type) :=
| Val (a : A)
| Raise (e : exn).
Arguments Val {A} a.
Arguments Raise {A} e.

(** A computation: the chunks it wrote to standard output, in order, and
    how it ended. *)
Definition M (A : Type) : Type := list string * result A.

Definition ret {A} (a : A) : M A := ([], Val a).

Definition bind {A B} (m : M A) (k : A -> M B) : M B :=
  match m with
  | (out, Val a) => let (out', r) := k a in (out ++ out', r)
  | (out, Raise e) => (out, Raise e)
  end.

Definition raise {A} (e : exn) : M A := ([], Raise e).

Definition NL : string := String "010" "".
Definition ESC : string := String "027" "".

(** [print(s)]: the text and a newline. *)
Definition line (s : string) : string := s +:+ NL.

Definition print (s : string) : M unit := ([line s], Val tt).

(** [input(prompt)]: the prompt is written, the typed line returned. *)
Definition input (prompt typed : string) : M string := ([prompt], Val typed).

(** [try: body / except IOError as e: h1 / except Exception as e: h2];
    [IOError] is the same class as [OSError]. *)
Definition try_except {A} (body : M A)
    (on_ioerror : exn -> M A) (on_exception : exn -> M A) : M A :=
  match body with
  | (out, Val a) => (out, Val a)
  | (out, Raise (OSError msg)) =>
      let (out', r) := on_ioerror (OSError msg) in (out ++ out', r)
  | (out, Raise e) =>
      let (out', r) := on_exception e in (out ++ out', r)
  end.

(** [for x in l: body(x)] *)
Fixpoint for_each {A} (l : list A) (body : A -> M unit) : M unit :=
  match l with
  | [] => ret tt
  | x :: r => bind (body x) (fun _ => for_each r body)
  end.

(** A [for] loop that updates a local variable. *)
Fixpoint for_fold {A S} (l : list A) (s : S) (body : S -> A -> M S) : M S :=
  match l with
  | [] => ret s
  | x :: r => bind (body s x) (fun s' => for_fold r s' body)
  end.

(** Reading a local variable: a name that was only annotated, never
    assigned, is unbound. *)
Definition load {A} (var : string) (binding : option A) : M A :=
  match binding with
  | Some a => ret a
  | None => raise (UnboundLocalError var)
  end.

(** The values the functions return. *)
Inductive value :=
| PyNone
| PyDict (items : list (string * string)).

Definition stdout {A} (m : M A) : list string := fst m.
Definition outcome {A} (m : M A) : result A := snd m.

End Py.

Notation "x <- m ;; k" := (Py.bind m (fun x => k))
  (at level 100, m at next level, right associativity).
Notation "m ;;; k" := (Py.bind m (fun _ => k))
  (at level 100, right associativity).

(** ** Files as the programs see them *)

(** [repr(s)] of a path string without quotes, backslashes or control
    characters. *)
Definition repr (s : string) : string := "'" +:+ s +:+ "'".

(** [open(p, 'rb')]: the handle stands for the file it was opened on.  A
    special node is taken to be a socket, which cannot be opened. *)
Definition open_rb (fs : FS.t) (p : PurePath.t)
  : Py.M (FS.readability * list byte) :=
  let s := PurePath.to_str p in
  if PyStr.has_char NUL s then Py.raise (Py.ValueError "embedded null byte")
  else
    match FS.stat fs p with
    | None =>
        Py.raise (Py.OSError ("[Errno 2] No such file or directory: " +:+ repr s))
    | Some (FS.Dir _) =>
        Py.raise (Py.OSError ("[Errno 21] Is a directory: " +:+ repr s))
    | Some FS.Special =>
        Py.raise (Py.OSError ("[Errno 6] No such device or address: " +:+ repr s))
    | Some (FS.File (FS.OpenFails err) _) => Py.raise (Py.OSError err)
    | Some (FS.File r content) => Py.ret (r, content)
    end.

(** [hashlib.file_digest(f, "sha256").hexdigest()] *)
Definition file_digest_sha256_hex (f : FS.readability * list byte)
  : Py.M string :=
  match fst f with
  | FS.ReadFails err => Py.raise (Py.OSError err)
  | _ => Py.ret (SHA256.hexdigest (snd f))
  end.

(** [Path.resolve()]: [os.path.realpath] looks at every component but [..]
    with [lstat], which refuses a string with a NUL character. *)
Definition resolve (fs : FS.t) (p : PurePath.t) : Py.result PurePath.t :=
  if existsb (PyStr.has_char NUL) (PurePath.tail p)
  then Py.Raise (Py.ValueError "embedded null byte")
  else Py.Val (PurePath.mk "/" (FS.realpath fs p)).

(** [root.rglob('*')] on a directory node: the entries of the directory,
    then the same for each subdirectory in listing order. *)
Fixpoint rglob_node (n : FS.node) (base : PurePath.t) : list PurePath.t :=
  match n with
  | FS.Dir es =>
      ((fun e => PurePath.child base (fst e)) <$> es) ++
      (fix below (l : list (string * FS.node)) : list PurePath.t :=
         match l with
         | [] => []
         | (nm, m) :: r => rglob_node m (PurePath.child base nm) ++ below r
         end) es
  | _ => []
  end.

Definition rglob_star (fs : FS.t) (p : PurePath.t) : list PurePath.t :=
  match FS.stat fs p with
  | Some (FS.Dir es) => rglob_node (FS.Dir es) p
  | _ => []
  end.

(** [for x in xs: if keep(x): acc.append(x)] from an empty [acc]. *)
Definition collect {A} (keep : A -> bool) (xs : list A) : list A :=
  fold_left (fun acc x => if keep x then acc ++ [x] else acc) xs [].

(** ** [get_all_files_recursive] (the same function in both modules) *)

Definition get_all_files_recursive (fs : FS.t) (root_folder_path : PurePath.t)
  : list PurePath.t :=
  collect (FS.is_file fs) (rglob_star fs root_folder_path).

(** ** [services/api/src/process_file.py]: the HTTP handlers *)

Module Api.

(** Which [raise HTTPException(...)] of [process_file] was reached.  The
    detail texts are left out: one of them joins the allow-list in set
    order, which Python does not fix. *)
Inductive detail :=
| TraversalDetected
| PathNotFound
| ProcessingFailed
| UnsupportedType
| IsADirectory
| NotAFileOrDirectory.

(** How a handler ends: it returns a value (sent as JSON with status 200),
    raises an [HTTPException], or lets another exception escape (which the
    framework answers with status 500). *)
Inductive response :=
| Returned (v : Py.value)
| HTTPException (status_code : Z) (d : detail)
| Uncaught (e : Py.exn).

Definition status (r : response) : Z :=
  match r with
  | Returned _ => 200
  | HTTPException c _ => c
  | Uncaught _ => 500
  end.

(** What the framework makes of a handler that is a plain function. *)
Definition answer (m : Py.M Py.value) : response :=
  match Py.outcome m with
  | Py.Val v => Returned v
  | Py.Raise e => Uncaught e
  end.

(** [read_root()] *)
Definition read_root : Py.M Py.value :=
  Py.ret (Py.PyDict [("message", "File Processing API is running.")]).

(** [with open(p, 'r', encoding='utf-8', errors='ignore') as f: f.read(100)]:
    decoding cannot fail, opening and reading can.  The text read is only
    printed. *)
Definition read_preview (fs : FS.t) (p : PurePath.t) : Py.result unit :=
  Py.outcome
    (f <- open_rb fs p ;;
     match fst f with
     | FS.ReadFails err => Py.raise (Py.OSError err)
     | _ => Py.ret tt
     end).

(** [process_file(file_path)].  What the handler prints on the server's
    standard output is left out: the response does not depend on it. *)
Definition process_file (fs : FS.t) (file_path : string) : response :=
  let decoded_file_path := Urllib.unquote file_path in
  let input_path := PurePath.of_str decoded_file_path in
  match resolve fs input_path with
  | Py.Raise e => Uncaught e
  | Py.Val resolved =>
      if PyStr.contains ".." (PurePath.to_str resolved) then
        HTTPException 400 TraversalDetected
      else if negb (FS.exists_ fs input_path) then
        HTTPException 404 PathNotFound
      else if FS.is_file fs input_path then
        let file_extension := file_extension input_path in
        if is_supported file_extension then
          match read_preview fs input_path with
          | Py.Val _ =>
              let message :=
                "File '" +:+ PurePath.name input_path +:+ "' (type: '" +:+
                file_extension +:+ "') processed successfully." in
              Returned (Py.PyDict [("message", message)])
          | Py.Raise _ => HTTPException 500 ProcessingFailed
          end
        else HTTPException 400 UnsupportedType
      else if FS.is_dir fs input_path then
        HTTPException 400 IsADirectory
      else HTTPException 400 NotAFileOrDirectory
  end.

(** [hash_file(file_path)]: no [return] statement, so the value is [None]. *)
Definition hash_file (fs : FS.t) (file_path : PurePath.t) : Py.M Py.value :=
  Py.try_except
    (f <- open_rb fs file_path ;;
     hashed_content <- file_digest_sha256_hex f ;;
     Py.print ("File: '" +:+ PurePath.to_str file_path +:+ "'" +:+ Py.NL +:+
               "  Hash: " +:+ hashed_content +:+ Py.NL))
    (fun e =>
       Py.print (Py.ESC +:+ "[91mError processing '" +:+
                 PurePath.to_str file_path +:+ "': " +:+ Py.str_of_exn e +:+
                 Py.ESC +:+ "[0m"))
    (fun e =>
       Py.print (Py.ESC +:+ "[91mAn unexpected error occurred with '" +:+
                 PurePath.to_str file_path +:+ "': " +:+ Py.str_of_exn e +:+
                 Py.ESC +:+ "[0m")) ;;;
  Py.ret Py.PyNone.

(** The local [files_to_process] of [process_folder]: the statement
    [files_to_process: pathlib.Path] annotates the name and binds nothing. *)
Definition files_to_process_binding : option (list PurePath.t) := None.

(** [process_folder(folder_path)] *)
Definition process_folder (fs : FS.t) (folder_path : string) : Py.M Py.value :=
  let input_path := PurePath.of_str folder_path in
  if negb (FS.exists_ fs input_path) then
    Py.print (Py.ESC +:+ "[91mError: Path not found at: '" +:+
              PurePath.to_str input_path +:+ "'" +:+ Py.ESC +:+ "[0m") ;;;
    Py.ret Py.PyNone
  else
    let files_to_process := files_to_process_binding in
    if FS.is_file fs input_path then
      Py.print ("'" +:+ PurePath.to_str input_path +:+
                "': is not a file, use '/process-folder' endpoint for folders.") ;;;
      Py.ret (Py.PyDict [])
    else if FS.is_dir fs input_path then
      Py.print ("Processing folder: '" +:+ PurePath.to_str input_path +:+ "'") ;;;
      let all_found_files := get_all_files_recursive fs input_path in
      files_to_process <-
        Py.for_fold all_found_files files_to_process
          (fun files_to_process found_file =>
             let file_extension := file_extension found_file in
             if is_supported file_extension then
               l <- Py.load "files_to_process" files_to_process ;;
               Py.ret (Some (l ++ [found_file]))
             else
               Py.print ("  Skipping: '" +:+ PurePath.to_str found_file +:+
                         "' (Type: '" +:+ file_extension +:+ "' not supported)") ;;;
               Py.ret files_to_process) ;;
      l <- Py.load "files_to_process" files_to_process ;;
      Py.for_each l (fun current_file_path =>
                       hash_file fs current_file_path ;;; Py.ret tt) ;;;
      Py.ret (Py.PyDict [("message", "Processing folder at: " +:+ folder_path)])
    else
      Py.print (Py.ESC +:+ "[91mError: Input path '" +:+
                PurePath.to_str input_path +:+ "' is not a type." +:+
                Py.ESC +:+ "[0m") ;;;
      Py.ret Py.PyNone.

End Api.

(** ** [services/api/process_file.py]: the command-line tool *)

Module Cli.

(** The body of the hashing loop of [main], for one file. *)
Definition hash_one (fs : FS.t) (current_file_path : PurePath.t) : Py.M unit :=
  Py.try_except
    (f <- open_rb fs current_file_path ;;
     hashed_content <- file_digest_sha256_hex f ;;
     Py.print ("File: '" +:+ PurePath.to_str current_file_path +:+ "'" +:+
               Py.NL +:+ "  Hash: " +:+ hashed_content +:+ Py.NL))
    (fun e =>
       Py.print (Py.ESC +:+ "[91mError processing '" +:+
                 PurePath.to_str current_file_path +:+ "': " +:+
                 Py.str_of_exn e +:+ Py.ESC +:+ "[0m"))
    (fun e =>
       Py.print (Py.ESC +:+ "[91mAn unexpected error occurred with '" +:+
                 PurePath.to_str current_file_path +:+ "': " +:+
                 Py.str_of_exn e +:+ Py.ESC +:+ "[0m")).

(** The part of [main] that decides what to hash; [None] stands for the
    [return] statements that end [main] early. *)
Definition select (fs : FS.t) (input_path : PurePath.t)
  : Py.M (option (list PurePath.t)) :=
  if FS.is_file fs input_path then
    let file_extension := file_extension input_path in
    if is_supported file_extension then
      Py.print ("Processing single file: '" +:+ PurePath.to_str input_path +:+
                "' (Type: '" +:+ file_extension +:+ "')") ;;;
      Py.ret (Some [input_path])
    else
      Py.print (Py.ESC +:+ "[91mError: File type '" +:+ file_extension +:+
                "' not supported for single file processing." +:+
                Py.ESC +:+ "[0m") ;;;
      Py.ret None
  else if FS.is_dir fs input_path then
    Py.print ("Processing folder recursively: '" +:+
              PurePath.to_str input_path +:+ "'") ;;;
    let all_found_files := get_all_files_recursive fs input_path in
    let files_to_process :=
      collect (fun found_file => is_supported (file_extension found_file))
              all_found_files in
    match files_to_process with
    | [] =>
        Py.print (Py.ESC +:+ "[93mWarning: No supported files found in folder '" +:+
                  PurePath.to_str input_path +:+ "'." +:+ Py.ESC +:+ "[0m") ;;;
        Py.ret None
    | _ => Py.ret (Some files_to_process)
    end
  else
    Py.print (Py.ESC +:+ "[91mError: Input path '" +:+
              PurePath.to_str input_path +:+
              "' is not a file or a directory." +:+ Py.ESC +:+ "[0m") ;;;
    Py.ret None.

(** The hashing loop at the end of [main]. *)
Definition hash_all (fs : FS.t) (files_to_process : list PurePath.t)
  : Py.M unit :=
  Py.print (Py.NL +:+ "--- Hashing " +:+
            pretty (length files_to_process) +:+ " Supported Files ---") ;;;
  Py.for_each files_to_process (hash_one fs).

(** [main()], with [sys.argv] and the line typed at the prompt. *)
Definition main (fs : FS.t) (argv : list string) (typed : string) : Py.M unit :=
  raw_input_path <-
    (if Z.of_nat (length argv) <? 2
     then Py.input "File or Folder Path: " typed
     else Py.ret (nth 1 argv "")) ;;
  let input_path := PurePath.of_str raw_input_path in
  if negb (FS.exists_ fs input_path) then
    Py.print (Py.ESC +:+ "[91mError: Path not found at: '" +:+
              PurePath.to_str input_path +:+ "'" +:+ Py.ESC +:+ "[0m")
  else
    files_to_process <- select fs input_path ;;
    match files_to_process with
    | None => Py.ret tt
    | Some files_to_process => hash_all fs files_to_process
    end.

End Cli.

(** ** A small file system used in the examples

<<
    /srv/data/report.pdf     /srv/data/binary.exe    /srv/data/locked.txt
    /srv/data/sub/a.docx     /srv/data/sub/NOTES.MD  /srv/data/sub/.gitignore
    /srv/data/v1..2/plan.txt /srv/data/empty/        /srv/data/worn.csv
    /etc/notes.txt           /dev/null
>>
    [locked.txt] cannot be opened, [worn.csv] fails while it is read, and the
    working directory is [/srv]. *)

Definition bytes (s : string) : list byte := list_byte_of_string s.

Definition sample_fs : FS.t :=
  FS.mk
    [ ("srv", FS.Dir
        [ ("data", FS.Dir
            [ ("report.pdf", FS.File FS.Readable (bytes "This is a test PDF content."));
              ("binary.exe", FS.File FS.Readable (bytes "MZ"));
              ("locked.txt",
                FS.File (FS.OpenFails "[Errno 13] Permission denied: '/srv/data/locked.txt'")
                        (bytes "secret"));
              ("sub", FS.Dir
                [ ("a.docx", FS.File FS.Readable (bytes "abc"));
                  ("NOTES.MD", FS.File FS.Readable (bytes ""));
                  (".gitignore", FS.File FS.Readable (bytes "*.vo")) ]);
              ("v1..2", FS.Dir
                [ ("plan.txt", FS.File FS.Readable (bytes "plan")) ]);
              ("empty", FS.Dir []);
              ("worn.csv", FS.File (FS.ReadFails "[Errno 5] Input/output error")
                                   (bytes "a,b")) ]) ]);
      ("etc", FS.Dir [ ("notes.txt", FS.File FS.Readable (bytes "hosts")) ]);
      ("dev", FS.Dir [ ("null", FS.Special) ]) ]
    [ "srv" ].

(** ** Definitions used to state the properties *)

(** The text after the last [.] of [s], when [s] has one. *)
Fixpoint after_last_dot (s : string) : option string :=
  match s with
  | "" => None
  | String c r =>
      match after_last_dot r with
      | Some t => Some t
      | None => if Ascii.eqb c "." then Some r else None
      end
  end.

(** A name such as [.gitignore]: a leading [.] and no other one. *)
Definition only_leading_dot (nm : string) : bool :=
  match nm with
  | String c r => Ascii.eqb c "." && negb (PyStr.has_char "." r)
  | "" => false
  end.

(** "Lowercased", letter by letter: each of the 26 capital letters becomes
    its small letter and every other character stays. *)
Definition lowercase_letter (c : ascii) : ascii :=
  match c with
  | "A" => "a" | "B" => "b" | "C" => "c" | "D" => "d" | "E" => "e"
  | "F" => "f" | "G" => "g" | "H" => "h" | "I" => "i" | "J" => "j"
  | "K" => "k" | "L" => "l" | "M" => "m" | "N" => "n" | "O" => "o"
  | "P" => "p" | "Q" => "q" | "R" => "r" | "S" => "s" | "T" => "t"
  | "U" => "u" | "V" => "v" | "W" => "w" | "X" => "x" | "Y" => "y"
  | "Z" => "z" | _ => c
  end%char.

Fixpoint lowercased (s : string) : string :=
  match s with
  | "" => ""
  | String c r => String (lowercase_letter c) (lowercased r)
  end.

(** A capital letter. *)
Definition is_uppercase (c : ascii) : bool :=
  PyStr.has_char c "ABCDEFGHIJKLMNOPQRSTUVWXYZ".

(** The extension of a file name as the specification words it: the text
    after the final [.], lowercased; empty without a [.] and for a name
    with only a leading one. *)
Definition spec_extension (nm : string) : string :=
  match after_last_dot nm with
  | None => ""
  | Some t => if only_leading_dot nm then "" else lowercased t
  end.



(** Reading the whole of a file: its digest, or the exception raised. *)
Definition read_digest (fs : FS.t) (p : PurePath.t) : Py.result string :=
  Py.outcome (f <- open_rb fs p ;; file_digest_sha256_hex f).

(** The chunks written about one file by the hashing code. *)
Definition hash_line (p : PurePath.t) (digest : string) : string :=
  Py.line ("File: '" +:+ PurePath.to_str p +:+ "'" +:+ Py.NL +:+
           "  Hash: " +:+ digest +:+ Py.NL).

Definition failure_line (p : PurePath.t) (e : Py.exn) : string :=
  match e with
  | Py.OSError _ =>
      Py.line (Py.ESC +:+ "[91mError processing '" +:+ PurePath.to_str p +:+
               "': " +:+ Py.str_of_exn e +:+ Py.ESC +:+ "[0m")
  | _ =>
      Py.line (Py.ESC +:+ "[91mAn unexpected error occurred with '" +:+
               PurePath.to_str p +:+ "': " +:+ Py.str_of_exn e +:+
               Py.ESC +:+ "[0m")
  end.

Definition report (fs : FS.t) (p : PurePath.t) : string :=
  match read_digest fs p with
  | Py.Val d => hash_line p d
  | Py.Raise e => failure_line p e
  end.

(** The line [process_folder] prints for a file it skips. *)
Definition skip_line (p : PurePath.t) : string :=
  Py.line ("  Skipping: '" +:+ PurePath.to_str p +:+ "' (Type: '" +:+
           file_extension p +:+ "' not supported)").

(** The files in front of the first one with a supported extension. *)
Fixpoint unsupported_prefix (l : list PurePath.t) : list PurePath.t :=
  match l with
  | [] => []
  | p :: r =>
      if is_supported (file_extension p) then [] else p :: unsupported_prefix r
  end.

(** Every character of [s] satisfies [P]. *)
Fixpoint all_chars (P : ascii -> bool) (s : string) : bool :=
  match s with
  | "" => true
  | String c r => P c && all_chars P r
  end.

Definition lower_hex (c : ascii) : bool := bool_decide (c ∈ SHA256.hexdigits).

(** The message of a successful [process_file] as the specification words
    it, and as the handler builds it. *)
Definition claimed_message (name ext : string) : string :=
  name +:+ " (type: '" +:+ ext +:+ "') processed successfully.".

Definition success_message (name ext : string) : string :=
  "File '" +:+ name +:+ "' (type: '" +:+ ext +:+ "') processed successfully.".

(** The path [main] works on: the first argument, or the typed line. *)
Definition chosen_path (argv : list string) (typed : string) : PurePath.t :=
  PurePath.of_str (if Z.of_nat (length argv) <? 2 then typed else nth 1 argv "").

(** What [main] writes before it looks at the path: the question, when no
    argument was given. *)
Definition prompt_written (argv : list string) : list string :=
  if Z.of_nat (length argv) <? 2 then ["File or Folder Path: "] else [].

(** The heading of the hashing loop of [main]. *)
Definition hashing_header (n : nat) : string :=
  Py.line (Py.NL +:+ "--- Hashing " +:+ pretty n +:+ " Supported Files ---").


(** The names the traversal guard of [process_file] looks at. *)
Definition guard_sees_dotdot (fs : FS.t) (p : PurePath.t) : bool :=
  existsb (PyStr.contains "..") (FS.realpath fs p).

(** * Properties *)

(** ** Facts about strings *)

Section StringFacts.

Lemma lower_ascii_dot c : Ascii.eqb (PyStr.lower_ascii c) "." = Ascii.eqb c ".".
Proof. by destruct c as [[] [] [] [] [] [] [] []]. Qed.

Lemma lower_ascii_idem c :
  PyStr.lower_ascii (PyStr.lower_ascii c) = PyStr.lower_ascii c.
Proof. by destruct c as [[] [] [] [] [] [] [] []]. Qed.

Lemma lower_idem s : PyStr.lower (PyStr.lower s) = PyStr.lower s.
Proof. induction s as [|c s IH]; simpl; [done|]. by rewrite lower_ascii_idem, IH. Qed.

Lemma lower_has_dot s :
  PyStr.has_char "." (PyStr.lower s) = PyStr.has_char "." s.
Proof.
  induction s as [|c s IH]; simpl; [done|]. by rewrite lower_ascii_dot, IH.
Qed.

Lemma lstrip_no_dot t :
  PyStr.has_char "." t = false -> PyStr.lstrip "." t = t.
Proof.
  destruct t as [|c t]; simpl; [done|].
  destruct (Ascii.eqb c "."); simpl; [done|done].
Qed.

Lemma len_String c s : PyStr.len (String c s) = PyStr.len s + 1.
Proof. unfold PyStr.len. simpl String.length. lia. Qed.

Lemma len_nonneg s : 0 <= PyStr.len s.
Proof. unfold PyStr.len. lia. Qed.

(** [rfind] and [after_last_dot] find the same dot. *)
Lemma rfind_after_last_dot s :
  match after_last_dot s with
  | None => PyStr.rfind "." s = -1 /\ PyStr.has_char "." s = false
  | Some t =>
      0 <= PyStr.rfind "." s /\
      PyStr.drop (Z.to_nat (PyStr.rfind "." s)) s = String "." t /\
      PyStr.has_char "." t = false /\
      PyStr.rfind "." s = PyStr.len s - 1 - PyStr.len t
  end.
Proof.
  induction s as [|c s IH]; simpl after_last_dot; [done|].
  cbn [PyStr.rfind PyStr.has_char]. rewrite len_String.
  destruct (after_last_dot s) as [t|].
  - destruct IH as (Hge & Hdrop & Hno & Hpos).
    destruct (Z.leb_spec 0 (PyStr.rfind "." s)); [|lia].
    split; [lia|]. split; [|split; [done|lia]].
    replace (Z.to_nat (PyStr.rfind "." s + 1)) with (S (Z.to_nat (PyStr.rfind "." s))) by lia.
    done.
  - destruct IH as (Hr & Hno). rewrite Hr, Hno. simpl.
    destruct (Ascii.eqb_spec c ".") as [->|Hc]; simpl.
    + repeat split; try done. lia.
    + done.
Qed.

End StringFacts.

Section Collect.
Context {A : Type} (keep : A -> bool).

Lemma collect_from acc xs :
  fold_left (fun acc x => if keep x then acc ++ [x] else acc) xs acc
  = acc ++ filter (fun x => keep x = true) xs.
Proof.
  revert acc. induction xs as [|x xs IH]; intros acc; simpl.
  - by rewrite app_nil_r.
  - rewrite IH, filter_cons. destruct (keep x); case_decide; try done.
    by rewrite <- app_assoc.
Qed.

Lemma collect_filter xs : collect keep xs = filter (fun x => keep x = true) xs.
Proof. unfold collect. by rewrite collect_from. Qed.

Lemma elem_of_collect x xs : x ∈ collect keep xs <-> x ∈ xs /\ keep x = true.
Proof. rewrite collect_filter, list_elem_of_filter. tauto. Qed.


End Collect.

(** ** The extension agrees with the specification's wording *)

Lemma not_supported_empty : is_supported "" = false.
Proof. by vm_compute. Qed.

Lemma file_extension_cases p :
  file_extension p =
  match after_last_dot (PurePath.name p) with
  | None => ""
  | Some t => if only_leading_dot (PurePath.name p) then "" else PyStr.lower t
  end.
Proof.
  unfold file_extension, PurePath.suffix.
  set (nm := PurePath.name p).
  pose proof (rfind_after_last_dot nm) as H.
  pose proof (len_nonneg nm) as Hn.
  destruct (after_last_dot nm) as [t|].
  - destruct H as (Hge & Hdrop & Hno & Hpos).
    pose proof (len_nonneg t) as Ht.
    destruct (Z.ltb_spec 0 (PyStr.rfind "." nm)) as [Hi|Hi]; simpl.
    + assert (only_leading_dot nm = false) as ->.
      { destruct nm as [|c r]; [done|]. simpl.
        destruct (Ascii.eqb c "."); [|done]. simpl.
        cbn [PyStr.rfind] in Hi.
        pose proof (rfind_after_last_dot r) as Hr.
        destruct (after_last_dot r) as [u|].
        - destruct Hr as (_ & Hd & _).
          assert (PyStr.has_char "." r = true) as ->; [|done].
          clear -Hd. revert Hd. generalize (Z.to_nat (PyStr.rfind "." r)).
          induction r as [|a r IH]; intros [|k]; simpl; try done.
          + intros [= -> _]. done.
          + intros Hk. rewrite (IH k Hk). by rewrite orb_true_r.
        - destruct Hr as (Hr & _). rewrite Hr in Hi. simpl in Hi.
          by destruct (Ascii.eqb c ".") in Hi. }
      destruct (Z.ltb_spec (PyStr.rfind "." nm) (PyStr.len nm - 1)) as [Hj|Hj].
      * rewrite Hdrop. simpl. by rewrite lstrip_no_dot.
      * assert (PyStr.len t = 0) as Hz by lia.
        destruct t; [done|]. rewrite len_String in Hz. pose proof (len_nonneg t). lia.
    + assert (PyStr.rfind "." nm = 0) as H0 by lia.
      rewrite H0 in Hdrop. simpl in Hdrop. rewrite Hdrop. simpl. by rewrite Hno.
  - destruct H as (-> & _). done.
Qed.

(** [str.lower] is the letter-by-letter lowering on every character. *)
Lemma lower_ascii_letter c : PyStr.lower_ascii c = lowercase_letter c.
Proof. by destruct c as [[] [] [] [] [] [] [] []]. Qed.

Lemma lower_lowercased s : PyStr.lower s = lowercased s.
Proof.
  induction s as [|c s IH]; simpl; [done|]. by rewrite lower_ascii_letter, IH.
Qed.

Lemma lower_ascii_not_uppercase c : is_uppercase (PyStr.lower_ascii c) = false.
Proof. by destruct c as [[] [] [] [] [] [] [] []]. Qed.

Lemma lower_no_uppercase s :
  all_chars (fun c => negb (is_uppercase c)) (PyStr.lower s) = true.
Proof.
  induction s as [|c s IH]; simpl; [done|].
  by rewrite lower_ascii_not_uppercase, IH.
Qed.

Lemma file_extension_spec p : file_extension p = spec_extension (PurePath.name p).
Proof.
  rewrite file_extension_cases. unfold spec_extension.
  destruct (after_last_dot (PurePath.name p)); [|done].
  destruct (only_leading_dot (PurePath.name p)); [done|]. apply lower_lowercased.
Qed.

(** ** Facts about the file-system tree *)

Section NodeInduction.
Variable P : FS.node -> Prop.
Hypothesis HFile : forall r c, P (FS.File r c).
Hypothesis HSpecial : P FS.Special.
Hypothesis HDir : forall es, Forall (fun e => P (snd e)) es -> P (FS.Dir es).

End NodeInduction.



















(** ** Extensions and the allow-list *)

Lemma has_dot_of_drop r : forall k u,
  PyStr.drop k r = String "." u -> PyStr.has_char "." r = true.
Proof.
  induction r as [|a r IH]; intros [|k] u; simpl; try done.
  - by intros [= -> _].
  - intros Hk. rewrite (IH k u Hk). apply orb_true_r.
Qed.

Lemma after_last_dot_app stem x :
  PyStr.has_char "." x = false ->
  after_last_dot (stem +:+ String "." x) = Some x.
Proof.
  intros Hx. induction stem as [|c stem IH]; simpl.
  - pose proof (rfind_after_last_dot x) as H.
    destruct (after_last_dot x) as [t|]; [|done].
    destruct H as (_ & Hd & _). by rewrite (has_dot_of_drop _ _ _ Hd) in Hx.
  - by rewrite IH.
Qed.

Lemma has_dot_app stem x : PyStr.has_char "." (stem +:+ String "." x) = true.
Proof. induction stem as [|c stem IH]; simpl; [done|]. rewrite IH. apply orb_true_r. Qed.

Lemma supported_entries E :
  E ∈ SUPPORTED_EXTENSIONS ->
  PyStr.lower E = E /\ PyStr.has_char "." E = false /\ E <> "".
Proof.
  unfold SUPPORTED_EXTENSIONS. rewrite elem_of_list_to_set.
  intros H. repeat (apply elem_of_cons in H as [->|H]; [by vm_compute|]).
  by apply elem_of_nil in H.
Qed.

Lemma is_supported_true E : is_supported E = true <-> E ∈ SUPPORTED_EXTENSIONS.
Proof. unfold is_supported. apply bool_decide_eq_true. Qed.

(** C4 — The extension both surfaces classify a path by is the text after
    the final [.] of the file name, lowercased ([spec_extension] lowers
    letter by letter, by its own table); it is empty when the name has
    no [.] and when its only [.] is the leading one (as in [.gitignore]).  The
    empty extension is not in the supported set, so such a file is always
    rejected: [process_file] never answers 200 for it, [main] prints the
    error for a single file and selects nothing, and the folder filter drops
    it. *)
Theorem extension_classification (p : PurePath.t) :
  file_extension p = spec_extension (PurePath.name p)
  /\ (PyStr.has_char "." (PurePath.name p) = false -> file_extension p = "")
  /\ (only_leading_dot (PurePath.name p) = true -> file_extension p = "")
  /\ is_supported "" = false
  /\ (file_extension p = "" ->
      (forall fs file_path,
          PurePath.of_str (Urllib.unquote file_path) = p ->
          Api.status (Api.process_file fs file_path) <> 200)
      /\ (forall fs,
          FS.is_file fs p = true ->
          Cli.select fs p =
            ([Py.line (Py.ESC +:+
                "[91mError: File type '' not supported for single file processing."
                +:+ Py.ESC +:+ "[0m")], Py.Val None))
      /\ (forall l, p ∉ collect (fun f => is_supported (file_extension f)) l)).
Proof.
  pose proof (file_extension_spec p) as Hspec.
  split; [done|]. split; [|split; [|split; [apply not_supported_empty|]]].
  - intros Hno. rewrite Hspec. unfold spec_extension.
    pose proof (rfind_after_last_dot (PurePath.name p)) as H.
    destruct (after_last_dot (PurePath.name p)) as [t|]; [|done].
    destruct H as (_ & Hd & _). by rewrite (has_dot_of_drop _ _ _ Hd) in Hno.
  - intros Hlead. rewrite Hspec. unfold spec_extension. rewrite Hlead.
    by destruct (after_last_dot _).
  - intros Hext. split; [|split].
    + intros fs file_path Hp. unfold Api.process_file. rewrite Hp.
      destruct (resolve fs p) as [q|e]; [|done].
      destruct (PyStr.contains ".." _); [done|].
      destruct (FS.exists_ fs p); [|done]. simpl.
      destruct (FS.is_file fs p).
      * by rewrite Hext, not_supported_empty.
      * by destruct (FS.is_dir fs p).
    + intros fs Hfile. unfold Cli.select.
      by rewrite Hfile, Hext, not_supported_empty.
    + intros l [_ Hin]%elem_of_collect.
      by rewrite Hext, not_supported_empty in Hin.
Qed.

Lemma extension_classification_witness :
  let p := PurePath.of_str "/srv/data/sub/.gitignore" in
  let q := PurePath.of_str "/srv/data/sub/NOTES.MD" in
  file_extension q = "md"
  /\ file_extension (PurePath.of_str "/srv/data/REPORT.Pdf") = "pdf"
  /\ file_extension p = ""
  /\ Api.status (Api.process_file sample_fs "/srv/data/sub/.gitignore") <> 200
  /\ Py.outcome (Cli.select sample_fs p) = Py.Val None
  /\ p ∉ collect (fun f => is_supported (file_extension f))
                 (get_all_files_recursive sample_fs (PurePath.of_str "/srv/data")).
Proof.
  split.
  { exact (eq_trans
             (proj1 (extension_classification
                       (PurePath.of_str "/srv/data/sub/NOTES.MD"))) eq_refl). }
  split.
  { exact (eq_trans
             (proj1 (extension_classification
                       (PurePath.of_str "/srv/data/REPORT.Pdf"))) eq_refl). }
  destruct (extension_classification
              (PurePath.of_str "/srv/data/sub/.gitignore"))
    as (_ & _ & Hlead & _ & Hrej).
  pose proof (Hlead eq_refl) as Hext.
  destruct (Hrej Hext) as (Hapi & Hcli & Hfolder).
  split; [exact Hext|].
  split; [exact (Hapi sample_fs "/srv/data/sub/.gitignore" eq_refl)|].
  split; [by rewrite (Hcli sample_fs eq_refl)|]. apply Hfolder.
Defined.

(** C5 — For a supported extension [E] and a file whose name is [stem.x]
    with [x] equal to [E] up to letter case, the extension the code computes
    is [E] and the membership test is true, whatever the case of [x]; and the
    entry [E] of the allow-list is itself lowercase and has no dot. *)
Theorem supported_whatever_the_case (p : PurePath.t) (stem x E : string) :
  E ∈ SUPPORTED_EXTENSIONS ->
  PyStr.lower x = PyStr.lower E ->
  stem <> "" ->
  PurePath.name p = stem +:+ "." +:+ x ->
  is_supported (file_extension p) = true
  /\ file_extension p = E
  /\ PyStr.lower E = E /\ PyStr.has_char "." E = false.
Proof.
  intros HE Hx Hstem Hname.
  destruct (supported_entries E HE) as (Hlow & Hdot & _).
  rewrite Hlow in Hx.
  assert (PyStr.has_char "." x = false) as Hxdot.
  { by rewrite <- lower_has_dot, Hx. }
  assert (file_extension p = E) as Hext.
  { rewrite file_extension_cases, Hname.
    change (stem +:+ "." +:+ x) with (stem +:+ String "." x).
    rewrite (after_last_dot_app _ _ Hxdot).
    destruct stem as [|c stem]; [done|]. simpl.
    by rewrite has_dot_app, andb_false_r. }
  split; [|done]. rewrite Hext. by apply is_supported_true.
Qed.

Lemma supported_whatever_the_case_witness :
  is_supported (file_extension (PurePath.of_str "/srv/data/REPORT.Pdf")) = true
  /\ file_extension (PurePath.of_str "/srv/data/REPORT.Pdf") = "pdf"
  /\ PyStr.lower "pdf" = "pdf" /\ PyStr.has_char "." "pdf" = false.
Proof.
  apply (supported_whatever_the_case
           (PurePath.of_str "/srv/data/REPORT.Pdf") "REPORT" "Pdf" "pdf").
  - by apply is_supported_true.
  - reflexivity.
  - discriminate.
  - reflexivity.
Defined.

(** ** The hashing code *)

Lemma hash_one_report fs p : Cli.hash_one fs p = ([report fs p], Py.Val tt).
Proof.
  unfold Cli.hash_one, report, read_digest, open_rb.
  destruct (PyStr.has_char NUL (PurePath.to_str p)); [done|].
  destruct (FS.stat fs p) as [[[] c| |]|]; done.
Qed.

Lemma hash_file_report fs p :
  Api.hash_file fs p = ([report fs p], Py.Val Py.PyNone).
Proof.
  unfold Api.hash_file, report, read_digest, open_rb.
  destruct (PyStr.has_char NUL (PurePath.to_str p)); [done|].
  destruct (FS.stat fs p) as [[[] c| |]|]; done.
Qed.

Lemma for_each_reports {A} (body : A -> Py.M unit) (out : A -> string) l :
  (forall x, body x = ([out x], Py.Val tt)) ->
  Py.for_each l body = (out <$> l, Py.Val tt).
Proof.
  intros Hbody. induction l as [|x l IH]; simpl; [done|].
  by rewrite Hbody, IH.
Qed.

Lemma hash_all_reports fs files :
  Cli.hash_all fs files =
  (Py.line (Py.NL +:+ "--- Hashing " +:+ pretty (length files) +:+
            " Supported Files ---") :: (report fs <$> files), Py.Val tt).
Proof.
  unfold Cli.hash_all.
  by rewrite (for_each_reports _ (report fs) _ (hash_one_report fs)).
Qed.

Lemma is_dir_exists fs p : FS.is_dir fs p = true -> FS.exists_ fs p = true.
Proof. unfold FS.is_dir, FS.exists_. by destruct (FS.stat fs p). Qed.

Lemma is_dir_not_file fs p : FS.is_dir fs p = true -> FS.is_file fs p = false.
Proof. unfold FS.is_dir, FS.is_file. by destruct (FS.stat fs p) as [[]|]. Qed.

Lemma is_file_exists fs p : FS.is_file fs p = true -> FS.exists_ fs p = true.
Proof. unfold FS.is_file, FS.exists_. by destruct (FS.stat fs p). Qed.

Lemma select_directory fs p files :
  FS.is_dir fs p = true ->
  collect (fun found_file => is_supported (file_extension found_file))
          (get_all_files_recursive fs p) = files ->
  files <> [] ->
  Cli.select fs p =
  ([Py.line ("Processing folder recursively: '" +:+ PurePath.to_str p +:+ "'")],
   Py.Val (Some files)).
Proof.
  intros Hd Hc Hne. unfold Cli.select.
  rewrite (is_dir_not_file _ _ Hd), Hd, Hc. by destruct files.
Qed.

(** [main] on a directory with supported files: the question when no
    argument was given, the two headings, and one report per file. *)
Lemma main_directory fs argv typed files :
  FS.is_dir fs (chosen_path argv typed) = true ->
  collect (fun found_file => is_supported (file_extension found_file))
          (get_all_files_recursive fs (chosen_path argv typed)) = files ->
  files <> [] ->
  Cli.main fs argv typed =
  ((if Z.of_nat (length argv) <? 2 then ["File or Folder Path: "] else []) ++
   [Py.line ("Processing folder recursively: '" +:+
             PurePath.to_str (chosen_path argv typed) +:+ "'");
    Py.line (Py.NL +:+ "--- Hashing " +:+ pretty (length files) +:+
             " Supported Files ---")] ++
   (report fs <$> files),
   Py.Val tt).
Proof.
  intros Hd Hc Hne. unfold Cli.main, chosen_path in *.
  destruct (Z.of_nat (length argv) <? 2); simpl Py.bind;
    rewrite (is_dir_exists _ _ Hd); simpl negb; cbv iota;
    rewrite (select_directory _ _ _ Hd Hc Hne); simpl Py.bind;
    by rewrite hash_all_reports.
Qed.

(** C3 — When [main] hashes the supported files of a directory and reading
    one of them, [f], fails, the failure is caught and reported on its own
    line and every file after [f] is still processed: [main] ends normally,
    and its output ends with one report per file, in order, the one for [f]
    being the error line. *)
Theorem batch_survives_failure
    (fs : FS.t) (argv : list string) (typed : string)
    (before after : list PurePath.t) (f : PurePath.t) (e : Py.exn) :
  FS.is_dir fs (chosen_path argv typed) = true ->
  collect (fun found_file => is_supported (file_extension found_file))
          (get_all_files_recursive fs (chosen_path argv typed))
    = before ++ f :: after ->
  read_digest fs f = Py.Raise e ->
  Py.outcome (Cli.main fs argv typed) = Py.Val tt
  /\ exists pre,
      Py.stdout (Cli.main fs argv typed) =
      pre ++ (report fs <$> before) ++ [failure_line f e] ++ (report fs <$> after).
Proof.
  intros Hdir Hfiles Hfail.
  rewrite (main_directory _ _ _ _ Hdir Hfiles) by by destruct before.
  split; [done|]. unfold Py.stdout, fst.
  rewrite fmap_app, fmap_cons. unfold report at 2. rewrite Hfail.
  rewrite app_assoc. by eexists.
Qed.

Lemma batch_survives_failure_witness :
  let argv := ["process_file.py"; "/srv/data"] in
  let f := PurePath.of_str "/srv/data/locked.txt" in
  let e := Py.OSError "[Errno 13] Permission denied: '/srv/data/locked.txt'" in
  let before := [PurePath.of_str "/srv/data/report.pdf"] in
  let after := PurePath.of_str <$>
    ["/srv/data/worn.csv"; "/srv/data/sub/a.docx"; "/srv/data/sub/NOTES.MD";
     "/srv/data/v1..2/plan.txt"] in
  Py.outcome (Cli.main sample_fs argv "") = Py.Val tt
  /\ exists pre,
      Py.stdout (Cli.main sample_fs argv "") =
      pre ++ (report sample_fs <$> before) ++ [failure_line f e] ++
      (report sample_fs <$> after).
Proof.
  apply (batch_survives_failure sample_fs ["process_file.py"; "/srv/data"] "");
    by vm_compute.
Defined.

(** ** The digest *)

Lemma length_be_bytes n x : length (SHA256.be_bytes n x) = n.
Proof. unfold SHA256.be_bytes. by rewrite length_map, length_rev, length_seq. Qed.

Lemma length_digest data : length (SHA256.digest data) = 32%nat.
Proof. unfold SHA256.digest. by rewrite !length_app, !length_be_bytes. Qed.

Lemma length_hex bs : String.length (SHA256.hex bs) = (2 * length bs)%nat.
Proof. induction bs as [|b bs IH]; simpl; [done|]. rewrite IH. lia. Qed.

Lemma hexdigit_lower n : lower_hex (SHA256.hexdigit n) = true.
Proof.
  unfold SHA256.hexdigit.
  assert (Z.to_nat (n mod 16) < 16)%nat as Hlt.
  { pose proof (Z.mod_pos_bound n 16). lia. }
  revert Hlt. generalize (Z.to_nat (n mod 16)). intros k Hk.
  do 16 (destruct k as [|k]; [by vm_compute|]). lia.
Qed.

Lemma hex_lower bs : all_chars lower_hex (SHA256.hex bs) = true.
Proof.
  induction bs as [|b bs IH]; simpl; [done|].
  by rewrite !hexdigit_lower, IH.
Qed.

Lemma read_digest_readable fs p content :
  FS.stat fs p = Some (FS.File FS.Readable content) ->
  PyStr.has_char NUL (PurePath.to_str p) = false ->
  read_digest fs p = Py.Val (SHA256.hexdigest content).
Proof.
  intros Hst Hnul. unfold read_digest, open_rb. by rewrite Hnul, Hst.
Qed.

(** C6 — The digest written for a readable file is [SHA256.hexdigest] of its
    content and of nothing else: the same in [main] and in [hash_file], the
    same when the file is hashed again, and the same for any file with that
    content.  It has exactly 64 characters, each one of [0-9a-f]. *)
Theorem digest_is_deterministic_hex64
    (fs : FS.t) (p : PurePath.t) (content : list byte) :
  FS.stat fs p = Some (FS.File FS.Readable content) ->
  PyStr.has_char NUL (PurePath.to_str p) = false ->
  let d := SHA256.hexdigest content in
  String.length d = 64%nat
  /\ all_chars lower_hex d = true
  /\ Cli.hash_one fs p = ([hash_line p d], Py.Val tt)
  /\ Api.hash_file fs p = ([hash_line p d], Py.Val Py.PyNone)
  /\ Py.stdout (Cli.hash_one fs p ;;; Cli.hash_one fs p)
     = [hash_line p d; hash_line p d].
Proof.
  intros Hst Hnul d. subst d.
  pose proof (read_digest_readable _ _ _ Hst Hnul) as Hrd.
  assert (report fs p = hash_line p (SHA256.hexdigest content)) as Hrep.
  { unfold report. by rewrite Hrd. }
  split; [|split; [|split; [|split]]].
  - unfold SHA256.hexdigest. by rewrite length_hex, length_digest.
  - apply hex_lower.
  - by rewrite hash_one_report, Hrep.
  - by rewrite hash_file_report, Hrep.
  - by rewrite hash_one_report, Hrep.
Qed.

Lemma digest_is_deterministic_hex64_witness :
  let p := PurePath.of_str "/srv/data/sub/a.docx" in
  let d := "ba7816bf8f01cfea414140de5dae2223b00361a396177a9cb410ff61f20015ad" in
  String.length d = 64%nat
  /\ all_chars lower_hex d = true
  /\ Cli.hash_one sample_fs p = ([hash_line p d], Py.Val tt)
  /\ Api.hash_file sample_fs p = ([hash_line p d], Py.Val Py.PyNone)
  /\ Py.stdout (Cli.hash_one sample_fs p ;;; Cli.hash_one sample_fs p)
     = [hash_line p d; hash_line p d].
Proof.
  exact (digest_is_deterministic_hex64 sample_fs
           (PurePath.of_str "/srv/data/sub/a.docx") (bytes "abc")
           eq_refl eq_refl).
Defined.

(** ** [hash_file] and [process_folder] *)

(** C9 — [hash_file] returns [None] for every file system and every path,
    whether the hashing works or an exception is caught; the digest only
    goes to standard output.  (The annotation [-> str] is not enforced by
    Python and has no counterpart here.) *)
Theorem hash_file_returns_None (fs : FS.t) (file_path : PurePath.t) :
  Py.outcome (Api.hash_file fs file_path) = Py.Val Py.PyNone
  /\ Py.stdout (Api.hash_file fs file_path) = [report fs file_path].
Proof. by rewrite hash_file_report. Qed.

(** C10 — For a [folder_path] that does not exist, [process_folder] raises
    nothing and returns [None]; for one that is a regular file it returns
    the empty dictionary.  Both are answered with status 200. *)
Theorem process_folder_without_a_directory (fs : FS.t) (folder_path : string) :
  (FS.exists_ fs (PurePath.of_str folder_path) = false ->
     Py.outcome (Api.process_folder fs folder_path) = Py.Val Py.PyNone
     /\ Api.status (Api.answer (Api.process_folder fs folder_path)) = 200)
  /\ (FS.is_file fs (PurePath.of_str folder_path) = true ->
     Py.outcome (Api.process_folder fs folder_path) = Py.Val (Py.PyDict [])
     /\ Api.status (Api.answer (Api.process_folder fs folder_path)) = 200).
Proof.
  unfold Api.answer, Api.process_folder. split.
  - by intros ->.
  - intros Hf. by rewrite (is_file_exists _ _ Hf), Hf.
Qed.

Lemma process_folder_without_a_directory_witness :
  (Py.outcome (Api.process_folder sample_fs "/srv/nothing") = Py.Val Py.PyNone
   /\ Api.status (Api.answer (Api.process_folder sample_fs "/srv/nothing")) = 200)
  /\ (Py.outcome (Api.process_folder sample_fs "/srv/data/report.pdf")
      = Py.Val (Py.PyDict [])
      /\ Api.status (Api.answer (Api.process_folder sample_fs "/srv/data/report.pdf"))
         = 200).
Proof.
  split.
  - apply (proj1 (process_folder_without_a_directory sample_fs "/srv/nothing")).
    reflexivity.
  - apply (proj2 (process_folder_without_a_directory sample_fs "/srv/data/report.pdf")).
    reflexivity.
Defined.

(** The filtering loop of [process_folder] starts with [files_to_process]
    unbound: it prints the files it skips and stops at the first supported
    one, where the [append] reads the unbound name. *)
Lemma filter_loop_unbound (l : list PurePath.t) :
  Py.for_fold l Api.files_to_process_binding
    (fun files_to_process found_file =>
       let file_extension := file_extension found_file in
       if is_supported file_extension then
         l <- Py.load "files_to_process" files_to_process ;;
         Py.ret (Some (l ++ [found_file]))
       else
         Py.print ("  Skipping: '" +:+ PurePath.to_str found_file +:+
                   "' (Type: '" +:+ file_extension +:+ "' not supported)") ;;;
         Py.ret files_to_process)
  = (skip_line <$> unsupported_prefix l,
     if forallb (fun p => negb (is_supported (file_extension p))) l
     then Py.Val None
     else Py.Raise (Py.UnboundLocalError "files_to_process")).
Proof.
  unfold Api.files_to_process_binding.
  match goal with |- Py.for_fold _ _ ?b = _ => set (body := b) end.
  induction l as [|p l IH]; [done|].
  cbn [Py.for_fold unsupported_prefix forallb]. unfold body at 1. cbv beta zeta.
  destruct (is_supported (file_extension p)); [done|].
  cbn [negb andb]. change (Py.bind _ _) with
    (let (out', r) := Py.for_fold l None body in ([skip_line p] ++ out', r)).
  rewrite IH. by destruct (forallb _ l).
Qed.



(** ** [process_file] *)

Lemma startswith_dotdot_app a b :
  PyStr.startswith ".." (a +:+ String "/" b) = PyStr.startswith ".." a.
Proof.
  destruct a as [|c [|d a]]; simpl; [done| |done].
  by rewrite !andb_false_r.
Qed.

Lemma contains_dotdot_app a b :
  PyStr.contains ".." (a +:+ String "/" b)
  = PyStr.contains ".." a || PyStr.contains ".." b.
Proof.
  induction a as [|c a IH].
  - done.
  - change (String c a +:+ String "/" b) with (String c (a +:+ String "/" b)).
    cbn [PyStr.contains]. rewrite IH.
    change (String c (a +:+ String "/" b)) with (String c a +:+ String "/" b).
    rewrite startswith_dotdot_app. by rewrite orb_assoc.
Qed.

Lemma contains_dotdot_join l :
  PyStr.contains ".." (PyStr.join "/" l) = existsb (PyStr.contains "..") l.
Proof.
  induction l as [|x [|y l] IH]; [done| |].
  - simpl. by rewrite orb_false_r.
  - change (PyStr.join "/" (x :: y :: l))
      with (x +:+ String "/" (PyStr.join "/" (y :: l))).
    rewrite contains_dotdot_app, IH. done.
Qed.

Lemma Forall_removelast {A} (P : A -> Prop) l :
  Forall P l -> Forall P (removelast l).
Proof.
  induction 1 as [|x l Hx Hl IH]; simpl; [done|].
  destruct l; [done|]. by constructor.
Qed.

Lemma realpath_names (P : string -> Prop) fs p :
  Forall P (FS.start fs p) ->
  Forall (fun c => c = ".." \/ P c) (PurePath.tail p) ->
  Forall P (FS.realpath fs p).
Proof.
  unfold FS.realpath. generalize (FS.start fs p).
  induction (PurePath.tail p) as [|c cs IH]; intros acc Hacc Hcs; simpl; [done|].
  apply Forall_cons in Hcs as [Hc Hcs]. apply IH; [|done].
  case_bool_decide as Hdd.
  - by apply Forall_removelast.
  - apply Forall_app. split; [done|]. constructor; [|done]. by destruct Hc.
Qed.

(** The guard of [process_file] looks at the resolved path, from which every
    [..] component is gone: it fires only on a name that has [..] inside. *)
Lemma guard_ignores_parent_steps fs file_path :
  let p := PurePath.of_str (Urllib.unquote file_path) in
  Forall (fun c => PyStr.contains ".." c = false) (FS.cwd fs) ->
  Forall (fun c => c = ".." \/ PyStr.contains ".." c = false) (PurePath.tail p) ->
  Api.process_file fs file_path <> Api.HTTPException 400 Api.TraversalDetected.
Proof.
  intros p Hcwd Htail. unfold Api.process_file. fold p. unfold resolve.
  destruct (existsb _ _); [done|].
  assert (PyStr.contains ".." (PurePath.to_str (PurePath.mk "/" (FS.realpath fs p)))
          = false) as ->.
  { unfold PurePath.to_str. simpl.
    change (PyStr.contains ".." (PyStr.join "/" (FS.realpath fs p)) = false).
    rewrite contains_dotdot_join. apply not_true_is_false.
    intros (c & Hin & Hc)%existsb_exists.
    assert (Forall (fun c => PyStr.contains ".." c = false) (FS.realpath fs p)) as HF.
    { apply realpath_names; [|done]. unfold FS.start. by case_bool_decide. }
    rewrite List.Forall_forall in HF. rewrite (HF _ Hin) in Hc. done. }
  destruct (negb _); [done|]. destruct (FS.is_file fs p).
  - destruct (is_supported _); [|done]. by destruct (Api.read_preview fs p).
  - by destruct (FS.is_dir fs p).
Qed.

(** When the guard fires, nothing of the file system is looked at. *)
Lemma guard_before_existence fs file_path q :
  resolve fs (PurePath.of_str (Urllib.unquote file_path)) = Py.Val q ->
  PyStr.contains ".." (PurePath.to_str q) = true ->
  Api.process_file fs file_path = Api.HTTPException 400 Api.TraversalDetected.
Proof. intros Hq Hc. unfold Api.process_file. by rewrite Hq, Hc. Qed.

(** C1 — The traversal guard does not do what the claim says.  The request
    for [/srv/data/../../etc/notes.txt] leaves [/srv/data] through [..]; it is
    answered 200 with the content of [/etc/notes.txt] processed, and the same
    request for a file that does not exist is answered 404, not 400. *)
Theorem traversal_is_not_rejected :
  Api.process_file sample_fs "/srv/data/../../etc/notes.txt"
    = Api.Returned (Py.PyDict
        [("message", "File 'notes.txt' (type: 'txt') processed successfully.")])
  /\ Api.process_file sample_fs "%2Fsrv%2Fdata%2F..%2F..%2Fetc%2Fnotes.txt"
    = Api.Returned (Py.PyDict
        [("message", "File 'notes.txt' (type: 'txt') processed successfully.")])
  /\ Api.process_file sample_fs "/srv/data/../../etc/none.txt"
    = Api.HTTPException 404 Api.PathNotFound.
Proof. by vm_compute. Qed.

(** C8, as the specification states it, fails: for [/srv/data/report.pdf]
    the body is not [{"message": "report.pdf (type: 'pdf') processed
    successfully."}]. *)
Lemma success_body_is_not_as_claimed :
  ~ (forall (fs : FS.t) (file_path : string),
       let p := PurePath.of_str (Urllib.unquote file_path) in
       FS.is_file fs p = true ->
       is_supported (file_extension p) = true ->
       Api.read_preview fs p = Py.Val tt ->
       Api.process_file fs file_path
       = Api.Returned (Py.PyDict
           [("message", claimed_message (PurePath.name p) (file_extension p))])).
Proof.
  intros H.
  specialize (H sample_fs "/srv/data/report.pdf" eq_refl eq_refl eq_refl).
  vm_compute in H. discriminate H.
Qed.

(** C8 (amended) — For every existing regular file with a supported
    extension whose preview read succeeds and whose resolved path has no
    [..] inside, [process_file] answers 200 with the body
    [{"message": "File '<name>' (type: '<ext>') processed successfully."}]. *)
Theorem process_file_success (fs : FS.t) (file_path : string) (q : PurePath.t) :
  let p := PurePath.of_str (Urllib.unquote file_path) in
  resolve fs p = Py.Val q ->
  PyStr.contains ".." (PurePath.to_str q) = false ->
  FS.is_file fs p = true ->
  is_supported (file_extension p) = true ->
  Api.read_preview fs p = Py.Val tt ->
  Api.process_file fs file_path
  = Api.Returned (Py.PyDict
      [("message", success_message (PurePath.name p) (file_extension p))])
  /\ Api.status (Api.process_file fs file_path) = 200.
Proof.
  intros p Hq Hguard Hfile Hsup Hread. unfold Api.process_file. fold p.
  by rewrite Hq, Hguard, (is_file_exists _ _ Hfile), Hfile, Hsup, Hread.
Qed.

Lemma process_file_success_witness :
  Api.process_file sample_fs "/srv/data/report.pdf"
  = Api.Returned (Py.PyDict [("message", success_message "report.pdf" "pdf")])
  /\ Api.status (Api.process_file sample_fs "/srv/data/report.pdf") = 200.
Proof.
  exact (process_file_success sample_fs "/srv/data/report.pdf"
           (PurePath.mk "/" ["srv"; "data"; "report.pdf"])
           eq_refl eq_refl eq_refl eq_refl eq_refl).
Defined.

(** ** The sample file system is well formed *)

Ltac name_ok_tac :=
  unfold FS.name_ok; repeat split; try discriminate; reflexivity.

Ltac wf_tac :=
  repeat first
    [ apply FS.wf_File
    | apply FS.wf_Special
    | apply FS.wf_Dir; [ by apply (bool_decide_unpack _) | ]
    | apply List.Forall_nil
    | apply List.Forall_cons; [ split; [ name_ok_tac | ] | ] ].

Lemma sample_fs_wf : FS.wf sample_fs.
Proof. unfold FS.wf, sample_fs. simpl. wf_tac. Qed.

(** ** Examples on the sample file system *)

Example sample_discovery :
  PurePath.to_str <$> get_all_files_recursive sample_fs (PurePath.of_str "/srv/data")
  = [ "/srv/data/report.pdf"; "/srv/data/binary.exe"; "/srv/data/locked.txt";
      "/srv/data/worn.csv"; "/srv/data/sub/a.docx"; "/srv/data/sub/NOTES.MD";
      "/srv/data/sub/.gitignore"; "/srv/data/v1..2/plan.txt" ].
Proof. reflexivity. Qed.

Example sample_extensions :
  file_extension <$> (PurePath.of_str <$>
    [ "/a/b/../c.TXT"; ".gitignore"; "a."; "a.tar.GZ"; "x/.."; "noext"; "a.b/c" ])
  = [ "txt"; ""; ""; "gz"; ""; ""; "" ].
Proof. reflexivity. Qed.

Example sample_guard_false_alarm :
  Api.process_file sample_fs "/srv/data/v1..2/plan.txt"
  = Api.HTTPException 400 Api.TraversalDetected.
Proof. reflexivity. Qed.

Example sample_digest_abc :
  SHA256.hexdigest (bytes "abc")
  = "ba7816bf8f01cfea414140de5dae2223b00361a396177a9cb410ff61f20015ad".
Proof. by vm_compute. Qed.


Example sha256_constants :
  length SHA256.K = 64%nat
  /\ nth 0 SHA256.K 0 = 0x428a2f98 /\ nth 63 SHA256.K 0 = 0xc67178f2
  /\ SHA256.ra SHA256.H0 = 0x6a09e667 /\ SHA256.rh SHA256.H0 = 0x5be0cd19.
Proof. by vm_compute. Qed.

Example sample_digest_two_blocks :
  SHA256.hexdigest
    (bytes "abcdbcdecdefdefgefghfghighijhijkijkljklmklmnlmnomnopnopq")
  = "248d6a61d20638b8e5c026930c3e6039a33ce45964ff2167f6ecedd419db06c1".
Proof. by vm_compute. Qed.

(** * Further properties of the code *)

(** ** [main] *)

Lemma main_start fs argv typed :
  Cli.main fs argv typed =
  let input_path := chosen_path argv typed in
  let (out, r) :=
    if negb (FS.exists_ fs input_path) then
      Py.print (Py.ESC +:+ "[91mError: Path not found at: '" +:+
                PurePath.to_str input_path +:+ "'" +:+ Py.ESC +:+ "[0m")
    else
      files_to_process <- Cli.select fs input_path ;;
      match files_to_process with
      | None => Py.ret tt
      | Some files_to_process => Cli.hash_all fs files_to_process
      end in
  (prompt_written argv ++ out, r).
Proof.
  unfold Cli.main, chosen_path, prompt_written.
  destruct (Z.of_nat (length argv) <? 2); simpl Py.bind; cbv zeta.
  - by destruct (if negb _ then _ else _).
  - by destruct (if negb _ then _ else _).
Qed.

(** X2 — A path that does not exist is reported as not found, whatever its
    extension, and nothing else is written. *)
Theorem main_missing_path (fs : FS.t) (argv : list string) (typed : string) :
  FS.exists_ fs (chosen_path argv typed) = false ->
  Py.stdout (Cli.main fs argv typed) =
  prompt_written argv ++
  [Py.line (Py.ESC +:+ "[91mError: Path not found at: '" +:+
            PurePath.to_str (chosen_path argv typed) +:+ "'" +:+ Py.ESC +:+ "[0m")].
Proof. intros He. rewrite main_start. cbv zeta. by rewrite He. Qed.

Lemma main_missing_path_witness :
  Py.stdout (Cli.main sample_fs ["process_file.py"; "does/not/exist.pdf"] "") =
  prompt_written ["process_file.py"; "does/not/exist.pdf"] ++
  [Py.line (Py.ESC +:+ "[91mError: Path not found at: '" +:+
            PurePath.to_str (chosen_path ["process_file.py"; "does/not/exist.pdf"] "")
            +:+ "'" +:+ Py.ESC +:+ "[0m")].
Proof.
  exact (main_missing_path sample_fs ["process_file.py"; "does/not/exist.pdf"] ""
           eq_refl).
Defined.

Lemma main_file_run fs argv typed :
  FS.is_file fs (chosen_path argv typed) = true ->
  Cli.main fs argv typed =
  (prompt_written argv ++
   (if is_supported (file_extension (chosen_path argv typed)) then
      [ Py.line ("Processing single file: '" +:+
                 PurePath.to_str (chosen_path argv typed) +:+
                 "' (Type: '" +:+ file_extension (chosen_path argv typed) +:+ "')");
        hashing_header 1; report fs (chosen_path argv typed) ]
    else
      [ Py.line (Py.ESC +:+ "[91mError: File type '" +:+
                 file_extension (chosen_path argv typed) +:+
                 "' not supported for single file processing." +:+
                 Py.ESC +:+ "[0m") ]),
   Py.Val tt).
Proof.
  intros Hf. rewrite main_start. cbv zeta.
  rewrite (is_file_exists _ _ Hf). simpl negb. cbv iota.
  unfold Cli.select. rewrite Hf.
  destruct (is_supported (file_extension _)); simpl Py.bind.
  - by rewrite hash_all_reports.
  - done.
Qed.

(** X3 — For a regular file, [main] hashes that one file when its extension is
    supported, and otherwise prints the error and hashes nothing. *)
Theorem main_single_file (fs : FS.t) (argv : list string) (typed : string) :
  FS.is_file fs (chosen_path argv typed) = true ->
  let p := chosen_path argv typed in
  Py.stdout (Cli.main fs argv typed) =
  prompt_written argv ++
  if is_supported (file_extension p) then
    [ Py.line ("Processing single file: '" +:+ PurePath.to_str p +:+
               "' (Type: '" +:+ file_extension p +:+ "')");
      hashing_header 1; report fs p ]
  else
    [ Py.line (Py.ESC +:+ "[91mError: File type '" +:+ file_extension p +:+
               "' not supported for single file processing." +:+
               Py.ESC +:+ "[0m") ].
Proof. intros Hf p. subst p. by rewrite (main_file_run _ _ _ Hf). Qed.

Lemma main_single_file_witness :
  let p := chosen_path ["process_file.py"] "data/report.pdf" in
  Py.stdout (Cli.main sample_fs ["process_file.py"] "data/report.pdf") =
  prompt_written ["process_file.py"] ++
  if is_supported (file_extension p) then
    [ Py.line ("Processing single file: '" +:+ PurePath.to_str p +:+
               "' (Type: '" +:+ file_extension p +:+ "')");
      hashing_header 1; report sample_fs p ]
  else
    [ Py.line (Py.ESC +:+ "[91mError: File type '" +:+ file_extension p +:+
               "' not supported for single file processing." +:+
               Py.ESC +:+ "[0m") ].
Proof.
  exact (main_single_file sample_fs ["process_file.py"] "data/report.pdf" eq_refl).
Defined.




(** ** [process_folder] *)

Lemma not_a_digest_line (s rest : string) (c : ascii) (p : PurePath.t) (d : string) :
  c <> "F"%char -> s = String c rest -> Py.line s <> hash_line p d.
Proof. intros Hc -> [= ->]. done. Qed.

Lemma skip_line_no_digest q p d : skip_line q <> hash_line p d.
Proof. by eapply not_a_digest_line; [|reflexivity]. Qed.

(** X5 — [process_folder] never gives its success answer and never computes
    a digest: a value it returns is [None] or [{}], never the dictionary with
    the message, and no chunk of its output is the line that carries a hash. *)
Theorem process_folder_never_succeeds (fs : FS.t) (folder_path : string) :
  let run := Api.process_folder fs folder_path in
  (forall v, Py.outcome run = Py.Val v -> v = Py.PyNone \/ v = Py.PyDict [])
  /\ Py.outcome run
     <> Py.Val (Py.PyDict [("message", "Processing folder at: " +:+ folder_path)])
  /\ forall chunk p d, chunk ∈ Py.stdout run -> chunk <> hash_line p d.
Proof.
  cbv zeta. unfold Api.process_folder.
  destruct (FS.exists_ fs _) eqn:He; simpl negb; cbv iota.
  2: { split; [intros v [= <-]; by left|]. split; [done|]. intros chunk p d Hin.
       apply list_elem_of_singleton in Hin as ->.
       by eapply not_a_digest_line; [|reflexivity]. }
  destruct (FS.is_file fs _) eqn:Hf.
  { split; [intros v [= <-]; by right|]. split; [done|]. intros chunk p d Hin.
    apply list_elem_of_singleton in Hin as ->.
    by eapply not_a_digest_line; [|reflexivity]. }
  destruct (FS.is_dir fs _) eqn:Hd.
  2: { split; [intros v [= <-]; by left|]. split; [done|]. intros chunk p d Hin.
       apply list_elem_of_singleton in Hin as ->.
       by eapply not_a_digest_line; [|reflexivity]. }
  rewrite filter_loop_unbound.
  assert (forall chunk p d,
            chunk ∈ Py.line ("Processing folder: '" +:+
                      PurePath.to_str (PurePath.of_str folder_path) +:+ "'")
                    :: (skip_line <$> unsupported_prefix
                          (get_all_files_recursive fs (PurePath.of_str folder_path)))
            -> chunk <> hash_line p d) as Hout.
  { intros chunk p d [->|Hin]%elem_of_cons.
    - by eapply not_a_digest_line; [|reflexivity].
    - apply list_elem_of_fmap in Hin as (q & -> & _). apply skip_line_no_digest. }
  destruct (forallb _ _); simpl; rewrite ?app_nil_r;
    (split; [done|]); (split; [done|]); exact Hout.
Qed.

(** ** [process_file]: which answer when *)

Lemma read_preview_ok fs p :
  Api.read_preview fs p = Py.Val tt <->
  PyStr.has_char NUL (PurePath.to_str p) = false /\
  exists content, FS.stat fs p = Some (FS.File FS.Readable content).
Proof.
  unfold Api.read_preview, open_rb.
  destruct (PyStr.has_char NUL (PurePath.to_str p)).
  - split; [done|]. by intros [? _].
  - destruct (FS.stat fs p) as [[[] c| |]|]; simpl; split;
      try done; try (by intros [_ [? ?]]).
    intros _. split; [done|]. by exists c.
Qed.

Ltac api_cases fs file_path :=
  unfold Api.process_file, resolve;
  destruct (existsb (PyStr.has_char NUL)
              (PurePath.tail (PurePath.of_str (Urllib.unquote file_path)))) eqn:Hnul;
  [|destruct (PyStr.contains ".."
       (PurePath.to_str
          (PurePath.mk "/" (FS.realpath fs (PurePath.of_str (Urllib.unquote file_path))))))
       eqn:Hguard;
    [|destruct (FS.exists_ fs (PurePath.of_str (Urllib.unquote file_path))) eqn:Hex;
      simpl negb; cbv iota;
      [destruct (FS.is_file fs (PurePath.of_str (Urllib.unquote file_path))) eqn:Hfile;
       [destruct (is_supported
                    (file_extension (PurePath.of_str (Urllib.unquote file_path))))
          eqn:Hsup;
        [destruct (Api.read_preview fs (PurePath.of_str (Urllib.unquote file_path)))
           as [[]|e] eqn:Hread|]
       |destruct (FS.is_dir fs (PurePath.of_str (Urllib.unquote file_path))) eqn:Hdir]
      |]]].

(** X6 — [process_file] answers 200 exactly for a readable regular file with a
    supported extension whose path has no NUL character and whose resolved
    form has no [..] inside. *)
Theorem process_file_ok_iff (fs : FS.t) (file_path : string) :
  let p := PurePath.of_str (Urllib.unquote file_path) in
  Api.status (Api.process_file fs file_path) = 200 <->
  (exists q, resolve fs p = Py.Val q
             /\ PyStr.contains ".." (PurePath.to_str q) = false)
  /\ FS.is_file fs p = true
  /\ is_supported (file_extension p) = true
  /\ Api.read_preview fs p = Py.Val tt.
Proof.
  cbv zeta. split.
  - api_cases fs file_path; simpl; try done.
    intros _. split; [|done]. eexists. split; [reflexivity|done].
  - intros ((q & Hq & Hg) & Hfile & Hsup & Hread).
    unfold Api.process_file.
    by rewrite Hq, Hg, (is_file_exists _ _ Hfile), Hfile, Hsup, Hread.
Qed.

(** X7 — [process_file] answers 404 exactly when the guard lets the path through
    and nothing exists there; in particular a missing path with a supported
    or unsupported extension alike. *)
Theorem process_file_not_found_iff (fs : FS.t) (file_path : string) :
  let p := PurePath.of_str (Urllib.unquote file_path) in
  Api.status (Api.process_file fs file_path) = 404 <->
  (exists q, resolve fs p = Py.Val q
             /\ PyStr.contains ".." (PurePath.to_str q) = false)
  /\ FS.exists_ fs p = false.
Proof.
  cbv zeta. split.
  - api_cases fs file_path; simpl; try done.
    intros _. split; [|done]. eexists. split; [reflexivity|done].
  - intros ((q & Hq & Hg) & Hex). unfold Api.process_file.
    by rewrite Hq, Hg, Hex.
Qed.

(** X8 — [process_file] answers with no status other than 200, 400, 404
    and 500; it answers 500 for a path with a NUL character ([resolve]
    raises), and for a supported regular file that passes the guard and whose
    preview read fails. *)
Theorem process_file_statuses (fs : FS.t) (file_path : string) :
  let p := PurePath.of_str (Urllib.unquote file_path) in
  let st := Api.status (Api.process_file fs file_path) in
  (st = 200 \/ st = 400 \/ st = 404 \/ st = 500)
  /\ (existsb (PyStr.has_char NUL) (PurePath.tail p) = true -> st = 500)
  /\ (FS.is_file fs p = true ->
      is_supported (file_extension p) = true ->
      PyStr.contains ".."
        (PurePath.to_str (PurePath.mk "/" (FS.realpath fs p))) = false ->
      (exists e, Api.read_preview fs p = Py.Raise e) ->
      st = 500).
Proof.
  cbv zeta. api_cases fs file_path; simpl;
    (split; [tauto|]); (split; [done|]); try done;
    try (by intros ? ? ? [? ?]; congruence).
  intros Hf. apply is_file_exists in Hf. congruence.
Qed.

Lemma process_file_statuses_witness :
  Api.status (Api.process_file sample_fs "/srv/%00") = 500
  /\ Api.status (Api.process_file sample_fs "/srv/data/locked.txt") = 500
  /\ Api.status (Api.process_file sample_fs "/srv/data/worn.csv") = 500.
Proof.
  split; [|split].
  - apply (proj1 (proj2 (process_file_statuses sample_fs "/srv/%00"))).
    reflexivity.
  - apply (proj2 (proj2 (process_file_statuses sample_fs "/srv/data/locked.txt")));
      try reflexivity.
    by eexists.
  - apply (proj2 (proj2 (process_file_statuses sample_fs "/srv/data/worn.csv")));
      try reflexivity.
    by eexists.
Defined.

(** X9 — [process_file] answers 400 exactly when the guard fires, or the path
    exists and is not a regular file with a supported extension (a
    directory, a special node, an unsupported type). *)
Theorem process_file_bad_request_iff (fs : FS.t) (file_path : string) :
  let p := PurePath.of_str (Urllib.unquote file_path) in
  Api.status (Api.process_file fs file_path) = 400 <->
  exists q, resolve fs p = Py.Val q
            /\ (PyStr.contains ".." (PurePath.to_str q) = true
                \/ (FS.exists_ fs p = true
                    /\ (FS.is_file fs p = false
                        \/ is_supported (file_extension p) = false))).
Proof.
  cbv zeta. split.
  - api_cases fs file_path; simpl; try done; intros _; eexists;
      (split; [reflexivity|]); rewrite ?Hguard; tauto.
  - intros (q & Hq & Hcase). revert Hq. api_cases fs file_path; simpl; try done;
      intros [= <-]; destruct Hcase as [?|(? & [?|?])]; congruence.
Qed.

(** ** The traversal guard of [process_file] *)

Lemma guard_test fs p :
  PyStr.contains ".." (PurePath.to_str (PurePath.mk "/" (FS.realpath fs p)))
  = guard_sees_dotdot fs p.
Proof.
  unfold PurePath.to_str, guard_sees_dotdot. simpl.
  change (PyStr.contains ".." (PyStr.join "/" (FS.realpath fs p))
          = existsb (PyStr.contains "..") (FS.realpath fs p)).
  apply contains_dotdot_join.
Qed.

Lemma guard_ignores_parent_steps_witness :
  Api.process_file sample_fs "/srv/data/../../etc/notes.txt"
  <> Api.HTTPException 400 Api.TraversalDetected.
Proof.
  apply (guard_ignores_parent_steps sample_fs "/srv/data/../../etc/notes.txt").
  - repeat constructor.
  - vm_compute. repeat (constructor; [first [by left | by right]|]). constructor.
Defined.

Lemma realpath_last fs root pre nm :
  nm <> ".." ->
  exists l, FS.realpath fs (PurePath.mk root (pre ++ [nm])) = l ++ [nm].
Proof.
  intros Hnm. unfold FS.realpath. simpl PurePath.tail.
  rewrite fold_left_app. simpl. rewrite bool_decide_eq_false_2 by done.
  by eexists.
Qed.

(** X12 — On the link-free file systems modelled here, a request whose last
    path component has [..] inside (such as [notes..txt]) is never processed,
    whether the file exists or not: it is refused with status 400 by the
    guard, or fails on a NUL character of the path with status 500. *)
Theorem guard_rejects_dotted_names
    (fs : FS.t) (file_path : string) (pre : list string) (nm : string) :
  PurePath.tail (PurePath.of_str (Urllib.unquote file_path)) = pre ++ [nm] ->
  PyStr.contains ".." nm = true ->
  nm <> ".." ->
  Api.process_file fs file_path =
  if existsb (PyStr.has_char NUL) (pre ++ [nm])
  then Api.Uncaught (Py.ValueError "embedded null byte")
  else Api.HTTPException 400 Api.TraversalDetected.
Proof.
  intros Htail Hnm Hne. unfold Api.process_file, resolve.
  rewrite Htail. destruct (existsb (PyStr.has_char NUL) (pre ++ [nm])); [done|].
  rewrite guard_test. unfold guard_sees_dotdot.
  destruct (PurePath.of_str (Urllib.unquote file_path)) as [rt tl].
  simpl in Htail. subst tl.
  destruct (realpath_last fs rt pre nm Hne) as [l ->].
  rewrite existsb_app. simpl. by rewrite Hnm, orb_true_r.
Qed.

Lemma guard_rejects_dotted_names_witness :
  Api.process_file sample_fs "/srv/data/notes..txt"
    = Api.HTTPException 400 Api.TraversalDetected
  /\ Api.process_file sample_fs "/srv/a%00b/notes..txt"
    = Api.Uncaught (Py.ValueError "embedded null byte").
Proof.
  split.
  - apply (guard_rejects_dotted_names sample_fs "/srv/data/notes..txt"
             ["srv"; "data"] "notes..txt"); by vm_compute.
  - apply (guard_rejects_dotted_names sample_fs "/srv/a%00b/notes..txt"
             ["srv"; String "a" (String NUL "b")] "notes..txt"); by vm_compute.
Defined.

(** ** The extension *)

(** X13 — The extension the code classifies a path by never has a capital
    letter [A]..[Z] in it, and never a dot. *)
Theorem file_extension_shape (p : PurePath.t) :
  all_chars (fun c => negb (is_uppercase c)) (file_extension p) = true
  /\ PyStr.has_char "." (file_extension p) = false.
Proof.
  rewrite file_extension_cases.
  pose proof (rfind_after_last_dot (PurePath.name p)) as H.
  destruct (after_last_dot (PurePath.name p)) as [t|]; [|done].
  destruct H as (_ & _ & Hno & _).
  destruct (only_leading_dot _); [done|].
  by rewrite lower_no_uppercase, lower_has_dot.
Qed.

Example sample_extension_shape :
  file_extension (PurePath.of_str "/srv/Archive.TAR.Gz") = "gz"
  /\ all_chars (fun c => negb (is_uppercase c)) "Gz" = false.
Proof. by vm_compute. Qed.

(** ** The two surfaces on one file *)

(** X14 — Every request [process_file] answers with 200 names a file that [main],
    given the decoded path as its argument, hashes: [main] prints the
    heading for a single file, the count 1 and the digest of the content. *)
Theorem accepted_file_is_hashed_by_main
    (fs : FS.t) (file_path prog typed : string) :
  Api.status (Api.process_file fs file_path) = 200 ->
  let raw := Urllib.unquote file_path in
  let p := PurePath.of_str raw in
  exists content,
    FS.stat fs p = Some (FS.File FS.Readable content)
    /\ Cli.main fs [prog; raw] typed =
       ([ Py.line ("Processing single file: '" +:+ PurePath.to_str p +:+
                   "' (Type: '" +:+ file_extension p +:+ "')");
          hashing_header 1;
          hash_line p (SHA256.hexdigest content) ],
        Py.Val tt).
Proof.
  intros Hok raw p. subst raw p.
  assert (FS.is_file fs (PurePath.of_str (Urllib.unquote file_path)) = true
          /\ is_supported (file_extension (PurePath.of_str (Urllib.unquote file_path)))
             = true
          /\ Api.read_preview fs (PurePath.of_str (Urllib.unquote file_path))
             = Py.Val tt) as (Hfile & Hsup & Hread).
  { revert Hok. api_cases fs file_path; simpl; done. }
  apply read_preview_ok in Hread as (Hnul & content & Hst).
  exists content. split; [done|].
  rewrite main_file_run by done.
  change (chosen_path [prog; Urllib.unquote file_path] typed)
    with (PurePath.of_str (Urllib.unquote file_path)).
  rewrite Hsup. unfold report. by rewrite (read_digest_readable _ _ _ Hst Hnul).
Qed.

Lemma accepted_file_is_hashed_by_main_witness :
  let p := PurePath.of_str "/srv/data/sub/a.docx" in
  exists content,
    FS.stat sample_fs p = Some (FS.File FS.Readable content)
    /\ Cli.main sample_fs ["process_file.py"; "/srv/data/sub/a.docx"] "" =
       ([ Py.line ("Processing single file: '" +:+ PurePath.to_str p +:+
                   "' (Type: '" +:+ file_extension p +:+ "')");
          hashing_header 1;
          hash_line p (SHA256.hexdigest content) ],
        Py.Val tt).
Proof.
  exact (accepted_file_is_hashed_by_main sample_fs "%2Fsrv%2Fdata%2Fsub%2Fa.docx"
           "process_file.py" "" eq_refl).
Defined.

(** ** Discovery below a subdirectory *)


